(** * Coordinate_Transformation.py: rigid-body frame transformations

    A shallow embedding of [src/Coordinate_Transformation.py] and the
    properties of its rotation builders, frame and object constructors and
    the two transforms [transform_point] and [transform_object].

    The development has three layers.
    - A value layer, generic in the scalar type: the arithmetic the source
      performs on numpy arrays, written entry by entry over an interface
      [Scalar] that assumes no algebraic law.  What is proved there holds for
      every interpretation of the scalars, binary64 included.
    - An object layer: Python instances and numpy arrays live in a store and
      are passed by reference; the functions of the source are computations
      in a state-and-failure monad over that store.
    - The instance at the real numbers, where the algebraic laws of the
      rotations are proved.  Rounding is not modelled at this instance: a
      float is read as the real number it stands for and every operation is
      exact.  The instance at binary64 shows where rounding breaks those
      laws. *)

From Stdlib Require Import Reals Lra Lia.
From Stdlib Require PrimFloat.
From stdpp Require Import base option gmap.

(** ** Scalars *)

(** The operations the source applies to array entries: the literals [0] and
    [1] of the rotation matrices, [+], [-], [*] (inside [@]), unary minus,
    and numpy's [cos], [sin] and [radians]. *)
Class Scalar (F : Type) := {
  s_zero : F;
  s_one : F;
  s_add : F → F → F;
  s_sub : F → F → F;
  s_mul : F → F → F;
  s_neg : F → F;
  np_cos : F → F;
  np_sin : F → F;
  np_radians : F → F
}.

Declare Scope scalar_scope.
Delimit Scope scalar_scope with S.
Infix "+" := s_add : scalar_scope.
Infix "-" := s_sub : scalar_scope.
Infix "*" := s_mul : scalar_scope.
Notation "- x" := (s_neg x) : scalar_scope.
Notation "0" := s_zero : scalar_scope.
Notation "1" := s_one : scalar_scope.

(** ** Arrays of shape (3,) and (3,3) *)

Record Vec3 (F : Type) := mkVec { vx : F; vy : F; vz : F }.
Record Mat3 (F : Type) := mkMat { row0 : Vec3 F; row1 : Vec3 F; row2 : Vec3 F }.
Arguments mkVec {F} _ _ _.
Arguments vx {F} _.
Arguments vy {F} _.
Arguments vz {F} _.
Arguments mkMat {F} _ _ _.
Arguments row0 {F} _.
Arguments row1 {F} _.
Arguments row2 {F} _.

(** A frame, as an instance of class [CoordinateSystem] holds it: the
    attribute [origin] and the attribute [R] (here [cs_R], the name [R]
    being the type of real numbers). *)
Record CoordinateSystem (F : Type) := mkCoordinateSystem {
  origin : Vec3 F;
  cs_R : Mat3 F
}.
Arguments mkCoordinateSystem {F} _ _.
Arguments origin {F} _.
Arguments cs_R {F} _.

(** An instance of class [Object]. *)
Record Object (F : Type) := mkObject {
  position : Vec3 F;
  rotation : Mat3 F
}.
Arguments mkObject {F} _ _.
Arguments position {F} _.
Arguments rotation {F} _.

Section Values.
Context {F : Type} `{Scalar F}.
Local Open Scope scalar_scope.

(** [a + b] and [a - b] on arrays of shape (3,). *)
Definition vadd (a b : Vec3 F) : Vec3 F :=
  mkVec (vx a + vx b) (vy a + vy b) (vz a + vz b).

Definition vsub (a b : Vec3 F) : Vec3 F :=
  mkVec (vx a - vx b) (vy a - vy b) (vz a - vz b).

(** The inner product behind [@], summed from the left. *)
Definition dot (a b : Vec3 F) : F :=
  vx a * vx b + vy a * vy b + vz a * vz b.

Definition col0 (m : Mat3 F) : Vec3 F :=
  mkVec (vx (row0 m)) (vx (row1 m)) (vx (row2 m)).
Definition col1 (m : Mat3 F) : Vec3 F :=
  mkVec (vy (row0 m)) (vy (row1 m)) (vy (row2 m)).
Definition col2 (m : Mat3 F) : Vec3 F :=
  mkVec (vz (row0 m)) (vz (row1 m)) (vz (row2 m)).

(** [m.T] *)
Definition transpose (m : Mat3 F) : Mat3 F :=
  mkMat (col0 m) (col1 m) (col2 m).

(** [m @ v] for [m] of shape (3,3) and [v] of shape (3,). *)
Definition matvec (m : Mat3 F) (v : Vec3 F) : Vec3 F :=
  mkVec (dot (row0 m) v) (dot (row1 m) v) (dot (row2 m) v).

(** The row [r @ b] of a product. *)
Definition rowmat (r : Vec3 F) (b : Mat3 F) : Vec3 F :=
  mkVec (dot r (col0 b)) (dot r (col1 b)) (dot r (col2 b)).

(** [a @ b] for two arrays of shape (3,3). *)
Definition matmul (a b : Mat3 F) : Mat3 F :=
  mkMat (rowmat (row0 a) b) (rowmat (row1 a) b) (rowmat (row2 a) b).

(** *** Rotation matrices (angles in degrees) *)

Definition rot_x (deg : F) : Mat3 F :=
  let rad := np_radians deg in
  mkMat (mkVec 1 0 0)
        (mkVec 0 (np_cos rad) (- np_sin rad))
        (mkVec 0 (np_sin rad) (np_cos rad)).

Definition rot_y (deg : F) : Mat3 F :=
  let rad := np_radians deg in
  mkMat (mkVec (np_cos rad) 0 (np_sin rad))
        (mkVec 0 1 0)
        (mkVec (- np_sin rad) 0 (np_cos rad)).

Definition rot_z (deg : F) : Mat3 F :=
  let rad := np_radians deg in
  mkMat (mkVec (np_cos rad) (- np_sin rad) 0)
        (mkVec (np_sin rad) (np_cos rad) 0)
        (mkVec 0 0 1).

(** A keyword argument [x_deg=0]: [None] when the caller leaves it out. *)
Definition deg_arg (a : option F) : F := default 0 a.

(** *** Constructors *)

(** [CoordinateSystem(origin, x_deg=0, y_deg=0, z_deg=0)] *)
Definition CoordinateSystem_init (origin : Vec3 F)
    (x_deg y_deg z_deg : option F) : CoordinateSystem F :=
  let Rx := rot_x (deg_arg x_deg) in
  let Ry := rot_y (deg_arg y_deg) in
  let Rz := rot_z (deg_arg z_deg) in
  mkCoordinateSystem origin (matmul (matmul Rz Ry) Rx).

(** [Object(position, x_deg=0, y_deg=0, z_deg=0)] *)
Definition Object_init (position : Vec3 F)
    (x_deg y_deg z_deg : option F) : Object F :=
  let Rx := rot_x (deg_arg x_deg) in
  let Ry := rot_y (deg_arg y_deg) in
  let Rz := rot_z (deg_arg z_deg) in
  mkObject position (matmul (matmul Rz Ry) Rx).

(** [out.rotation = new_rotation] *)
Definition set_rotation (out : Object F) (new_rotation : Mat3 F) : Object F :=
  mkObject (position out) new_rotation.

(** *** Transforms *)

Definition transform_point (point : Vec3 F) (cs1 cs2 : CoordinateSystem F)
    : Vec3 F :=
  let point_global := vadd (origin cs1) (matvec (cs_R cs1) point) in
  matvec (transpose (cs_R cs2)) (vsub point_global (origin cs2)).

Definition transform_object (obj : Object F) (cs1 cs2 : CoordinateSystem F)
    : Object F :=
  let new_position := transform_point (position obj) cs1 cs2 in
  let rotation_global := matmul (cs_R cs1) (rotation obj) in
  let new_rotation := matmul (transpose (cs_R cs2)) rotation_global in
  let out := Object_init new_position None None None in
  set_rotation out new_rotation.

(** The value [expected] that the self-test of the source computes next to
    the call of [transform_point]. *)
Definition expected (p : Vec3 F) (cs1 cs2 : CoordinateSystem F) : Vec3 F :=
  matvec (transpose (cs_R cs2))
         (vsub (vadd (origin cs1) (matvec (cs_R cs1) p)) (origin cs2)).

End Values.

(** ** The store: instances and arrays by reference *)

(** Every numpy array and every class instance is an object with an
    identity; attributes hold references.  Scalars (Python and numpy floats)
    are immutable and are passed as values. *)
Definition loc := positive.

Inductive pyobj (F : Type) :=
  | Array1 (v : Vec3 F)                      (* ndarray, shape (3,) *)
  | Array2 (m : Mat3 F)                      (* ndarray, shape (3,3) *)
  | CsysInst (origin_ref R_ref : loc)        (* CoordinateSystem instance *)
  | ObjInst (position_ref rotation_ref : loc). (* Object instance *)
Arguments Array1 {F} _.
Arguments Array2 {F} _.
Arguments CsysInst {F} _ _.
Arguments ObjInst {F} _ _.

(** A computation reads and extends the store and returns a value, or fails
    (an attribute or array of the wrong kind: Python raises). *)
Definition Py (F A : Type) : Type := gmap loc (pyobj F) → option (A * gmap loc (pyobj F)).

Global Instance py_ret {F} : MRet (Py F) := λ A a h, Some (a, h).

Global Instance py_bind {F} : MBind (Py F) := λ A B k m h,
  match m h with
  | Some (a, h') => k a h'
  | None => None
  end.

Section Store.
Context {F : Type} `{Scalar F}.

(** A new object gets a location not in use. *)
Definition alloc (o : pyobj F) : Py F loc :=
  λ h, let l := fresh (dom h) in Some (l, <[l := o]> h).

Definition get_vec (l : loc) : Py F (Vec3 F) :=
  λ h, match h !! l with
       | Some (Array1 v) => Some (v, h)
       | _ => None
       end.

Definition get_mat (l : loc) : Py F (Mat3 F) :=
  λ h, match h !! l with
       | Some (Array2 m) => Some (m, h)
       | _ => None
       end.

(** [cs.origin], [cs.R] *)
Definition get_origin (cs : loc) : Py F loc :=
  λ h, match h !! cs with
       | Some (CsysInst o _) => Some (o, h)
       | _ => None
       end.

Definition get_R (cs : loc) : Py F loc :=
  λ h, match h !! cs with
       | Some (CsysInst _ r) => Some (r, h)
       | _ => None
       end.

(** [obj.position], [obj.rotation] *)
Definition get_position (obj : loc) : Py F loc :=
  λ h, match h !! obj with
       | Some (ObjInst p _) => Some (p, h)
       | _ => None
       end.

Definition get_rotation (obj : loc) : Py F loc :=
  λ h, match h !! obj with
       | Some (ObjInst _ r) => Some (r, h)
       | _ => None
       end.

(** [obj.rotation = r]: the one assignment to an attribute of an existing
    instance in the source. *)
Definition setattr_rotation (obj r : loc) : Py F unit :=
  λ h, match h !! obj with
       | Some (ObjInst p _) => Some (tt, <[obj := ObjInst p r]> h)
       | _ => None
       end.

(** The array operations below are those of the program on the shapes it
    works with: a point or origin of shape (3,), an orientation of shape
    (3,3).  On an operand of another shape, where numpy would broadcast,
    they fail; such runs are outside this model. *)

(** [np.array(a, float)] on an array: a copy. *)
Definition np_array (a : loc) : Py F loc :=
  v ← get_vec a; alloc (Array1 v).

(** [a + b], [a - b], [m @ v], [a @ b]: each builds a new array. *)
Definition py_vadd (a b : loc) : Py F loc :=
  x ← get_vec a; y ← get_vec b; alloc (Array1 (vadd x y)).

Definition py_vsub (a b : loc) : Py F loc :=
  x ← get_vec a; y ← get_vec b; alloc (Array1 (vsub x y)).

Definition py_matvec (m v : loc) : Py F loc :=
  x ← get_mat m; y ← get_vec v; alloc (Array1 (matvec x y)).

Definition py_matmul (a b : loc) : Py F loc :=
  x ← get_mat a; y ← get_mat b; alloc (Array2 (matmul x y)).

(** [m.T @ v] and [m.T @ b].  [m.T] is a view on the data of [m]; nothing
    is written through it, so it is read off [m] in place. *)
Definition py_matTvec (m v : loc) : Py F loc :=
  x ← get_mat m; y ← get_vec v; alloc (Array1 (matvec (transpose x) y)).

Definition py_matTmul (m b : loc) : Py F loc :=
  x ← get_mat m; y ← get_mat b; alloc (Array2 (matmul (transpose x) y)).

Definition py_rot_x (deg : F) : Py F loc := alloc (Array2 (rot_x deg)).
Definition py_rot_y (deg : F) : Py F loc := alloc (Array2 (rot_y deg)).
Definition py_rot_z (deg : F) : Py F loc := alloc (Array2 (rot_z deg)).

(** [CoordinateSystem.__init__], called on an array-like [origin]. *)
Definition py_CoordinateSystem (origin : loc) (x_deg y_deg z_deg : option F)
    : Py F loc :=
  o ← np_array origin;
  Rx ← py_rot_x (deg_arg x_deg);
  Ry ← py_rot_y (deg_arg y_deg);
  Rz ← py_rot_z (deg_arg z_deg);
  RzRy ← py_matmul Rz Ry;
  R ← py_matmul RzRy Rx;
  alloc (CsysInst o R).

(** [Object.__init__] *)
Definition py_Object (position : loc) (x_deg y_deg z_deg : option F)
    : Py F loc :=
  p ← np_array position;
  Rx ← py_rot_x (deg_arg x_deg);
  Ry ← py_rot_y (deg_arg y_deg);
  Rz ← py_rot_z (deg_arg z_deg);
  RzRy ← py_matmul Rz Ry;
  rot ← py_matmul RzRy Rx;
  alloc (ObjInst p rot).

Definition py_transform_point (point cs1 cs2 : loc) : Py F loc :=
  point ← np_array point;
  o1 ← get_origin cs1;
  R1 ← get_R cs1;
  R1p ← py_matvec R1 point;
  point_global ← py_vadd o1 R1p;
  R2 ← get_R cs2;
  o2 ← get_origin cs2;
  d ← py_vsub point_global o2;
  py_matTvec R2 d.

Definition py_transform_object (obj cs1 cs2 : loc) : Py F loc :=
  p ← get_position obj;
  new_position ← py_transform_point p cs1 cs2;
  R1 ← get_R cs1;
  rot ← get_rotation obj;
  rotation_global ← py_matmul R1 rot;
  R2 ← get_R cs2;
  new_rotation ← py_matTmul R2 rotation_global;
  out ← py_Object new_position None None None;
  _ ← setattr_rotation out new_rotation;
  mret out.

(** What the store holds behind a reference to a frame or to an object. *)
Definition frame_at (h : gmap loc (pyobj F)) (cs : loc) (c : CoordinateSystem F) : Prop :=
  ∃ o r, h !! cs = Some (CsysInst o r)
         ∧ h !! o = Some (Array1 (origin c))
         ∧ h !! r = Some (Array2 (cs_R c)).

Definition object_at (h : gmap loc (pyobj F)) (obj : loc) (b : Object F) : Prop :=
  ∃ p r, h !! obj = Some (ObjInst p r)
         ∧ h !! p = Some (Array1 (position b))
         ∧ h !! r = Some (Array2 (rotation b)).

(** Postcondition reasoning: [m] returns from [h], and [Q] holds of the
    result and the new store. *)
Definition returns {A} (m : Py F A) (h : gmap loc (pyobj F))
    (Q : A → gmap loc (pyobj F) → Prop) : Prop :=
  ∃ a h', m h = Some (a, h') ∧ Q a h'.

(** A store [h'] that keeps every object of [h] as it was. *)
Definition keeps (h h' : gmap loc (pyobj F)) : Prop :=
  ∀ l o, h !! l = Some o → h' !! l = Some o.

(** Partial counterpart of [returns]: if [m] returns from [h], then [Q]
    holds of the result and the new store.  A run that raises satisfies it. *)
Definition ensures {A} (m : Py F A) (h : gmap loc (pyobj F))
    (Q : A → gmap loc (pyobj F) → Prop) : Prop :=
  ∀ a h', m h = Some (a, h') → Q a h'.

(** The result is a new object holding [o], and nothing old is touched. *)
Definition yields (o : pyobj F) (h : gmap loc (pyobj F))
    : loc → gmap loc (pyobj F) → Prop :=
  λ l h', keeps h h' ∧ h !! l = None ∧ h' !! l = Some o.

End Store.

(** ** Matrix notions used in the properties *)

Section MatrixNotions.
Context {F : Type} `{Scalar F}.
Local Open Scope scalar_scope.

Definition I3 : Mat3 F :=
  mkMat (mkVec 1 0 0) (mkVec 0 1 0) (mkVec 0 0 1).

(** Determinant, expanded along the first row. *)
Definition det (m : Mat3 F) : F :=
  let '(mkVec a b c) := row0 m in
  let '(mkVec d e f) := row1 m in
  let '(mkVec g h i) := row2 m in
  a * (e * i - f * h) - b * (d * i - f * g) + c * (d * h - e * g).

(** Adjugate (transposed cofactors). *)
Definition adj (m : Mat3 F) : Mat3 F :=
  let '(mkVec a b c) := row0 m in
  let '(mkVec d e f) := row1 m in
  let '(mkVec g h i) := row2 m in
  mkMat (mkVec (e * i - f * h) (c * h - b * i) (b * f - c * e))
        (mkVec (f * g - d * i) (a * i - c * g) (c * d - a * f))
        (mkVec (d * h - e * g) (b * g - a * h) (a * e - b * d)).

End MatrixNotions.

(** ** The instance at the real numbers *)

Local Open Scope R_scope.

(** [np.radians(deg)] is [deg * (pi / 180)]. *)
#[global] Instance real_scalar : Scalar R := {|
  s_zero := 0;
  s_one := 1;
  s_add := Rplus;
  s_sub := Rminus;
  s_mul := Rmult;
  s_neg := Ropp;
  np_cos := cos;
  np_sin := sin;
  np_radians := λ deg, deg * (PI / 180)
|}.

(** A proper rotation: [M · M^T = I] and [det M = 1]. *)
Definition is_rotation (m : Mat3 R) : Prop :=
  matmul m (transpose m) = I3 ∧ det m = 1.

(** Entrywise distance at most [tol]. *)
Definition within (tol : R) (a b : Vec3 R) : Prop :=
  Rabs (vx a - vx b) <= tol
  ∧ Rabs (vy a - vy b) <= tol
  ∧ Rabs (vz a - vz b) <= tol.

(** [np.allclose(a, b)] with numpy's default tolerances [rtol=1e-05] and
    [atol=1e-08]: entrywise [|a - b| <= atol + rtol * |b|]. *)
Definition isclose (a b : R) : Prop :=
  Rabs (a - b) <= 1 / 100000000 + 1 / 100000 * Rabs b.

Definition allclose (a b : Vec3 R) : Prop :=
  isclose (vx a) (vx b) ∧ isclose (vy a) (vy b) ∧ isclose (vz a) (vz b).


(** The objects a run of the program can hold: built by the constructor, or
    obtained from such an object by [transform_object] between two frames
    built by the constructor. *)
Inductive program_object : Object R → Prop :=
  | po_init (p : Vec3 R) (x_deg y_deg z_deg : option R) :
      program_object (Object_init p x_deg y_deg z_deg)
  | po_transform (obj : Object R) (o1 o2 : Vec3 R)
      (x1 y1 z1 x2 y2 z2 : option R) :
      program_object obj →
      program_object
        (transform_object obj (CoordinateSystem_init o1 x1 y1 z1)
                              (CoordinateSystem_init o2 x2 y2 z2)).

(** *** The frames and the point of the self-test *)

Definition main_cs1 : CoordinateSystem R :=
  CoordinateSystem_init (mkVec 0 0 0) (Some 0) (Some 0) (Some 0).

Definition main_cs2 : CoordinateSystem R :=
  CoordinateSystem_init (mkVec 10 5 3) (Some 0) (Some 0) (Some 6).

Definition main_p : Vec3 R := mkVec 1 0 0.

Definition main_result : Vec3 R := transform_point main_p main_cs1 main_cs2.

Definition main_expected : Vec3 R := expected main_p main_cs1 main_cs2.

(** *** The quarter-turn scenario *)

Definition quarter_cs1 : CoordinateSystem R :=
  CoordinateSystem_init (mkVec 0 0 0) (Some 0) (Some 0) (Some 0).

Definition quarter_cs2 : CoordinateSystem R :=
  CoordinateSystem_init (mkVec 0 0 0) (Some 0) (Some 0) (Some 90).

(** *** Notions for the further properties *)

(** Squared Euclidean distance of two points. *)
Definition sqdist (p q : Vec3 R) : R := dot (vsub p q) (vsub p q).

(** The frame [CoordinateSystem([0,0,0])]: no offset, every angle left out. *)
Definition global_frame : CoordinateSystem R :=
  CoordinateSystem_init (mkVec 0 0 0) None None None.

(** ** The instance at binary64

    The arithmetic of numpy's [float64] arrays: IEEE 754 binary64 with
    rounding to nearest.  [cos], [sin] and [radians] come from the C library
    behind numpy and are parameters here. *)
Module Binary64.
Import PrimFloat.

Definition scalar (cosf sinf radf : float → float) : Scalar float := {|
  s_zero := 0%float;
  s_one := 1%float;
  s_add := add;
  s_sub := sub;
  s_mul := mul;
  s_neg := opp;
  np_cos := cosf;
  np_sin := sinf;
  np_radians := radf
|}.

Definition zero : float := 0%float.
Definition one : float := 1%float.

(** [CoordinateSystem([1e20, 0, 0])] and [CoordinateSystem([0, 0, 0])]. *)
Definition far_frame (cosf sinf radf : float → float)
    : CoordinateSystem float :=
  @CoordinateSystem_init float (scalar cosf sinf radf)
    (mkVec 1e20%float 0%float 0%float) None None None.

Definition near_frame (cosf sinf radf : float → float)
    : CoordinateSystem float :=
  @CoordinateSystem_init float (scalar cosf sinf radf)
    (mkVec 0%float 0%float 0%float) None None None.

Definition unit_x : Vec3 float := mkVec 1%float 0%float 0%float.
Definition far_x : Vec3 float := mkVec 1e20%float 0%float 0%float.
Definition zero_vec : Vec3 float := mkVec 0%float 0%float 0%float.


(** [np.allclose(a, b)] on finite entries, computed as numpy does in
    binary64: [|a - b| <= atol + rtol * |b|] with [rtol = 1e-05] and
    [atol = 1e-08] (the doubles nearest to these decimals). *)
Definition atol : float := 0x1.5798ee2308c3ap-27%float.   (* 1e-08 *)
Definition rtol : float := 0x1.4f8b588e368f1p-17%float.   (* 1e-05 *)

Definition isclose (a b : float) : bool :=
  (abs (a - b) <=? atol + rtol * abs b)%float.

Definition allclose (a b : Vec3 float) : bool :=
  isclose (vx a) (vx b) && isclose (vy a) (vy b) && isclose (vz a) (vz b).

End Binary64.

(** *** A small store with aliasing

    An object at [3] with position array [1] and rotation array [2], and a
    frame at [5] with origin array [4] whose orientation is that same array
    [2]. *)
Definition shared_store : gmap loc (pyobj R) :=
  <[5%positive := CsysInst 4%positive 2%positive]>
    (<[4%positive := Array1 (mkVec 10 5 3)]>
       (<[3%positive := ObjInst 1%positive 2%positive]>
          (<[2%positive := Array2 I3]>
             (<[1%positive := Array1 (mkVec 1 0 0)]> ∅)))).

(** ** Properties that hold for every scalar type *)

Section ValueFacts.
Context {F : Type} `{Scalar F}.

Lemma deg_arg_default : deg_arg (F := F) None = s_zero.
Proof. reflexivity. Qed.

Lemma deg_arg_given (a : F) : deg_arg (Some a) = a.
Proof. reflexivity. Qed.

(** The position of a transformed object is the transformed position,
    whatever the rotation of the object. *)
Lemma transform_object_position (obj : Object F) (cs1 cs2 : CoordinateSystem F) :
  position (transform_object obj cs1 cs2) = transform_point (position obj) cs1 cs2.
Proof. reflexivity. Qed.

(** The rotation built by [Object(new_position)] is overwritten. *)
Lemma transform_object_rotation (obj : Object F) (cs1 cs2 : CoordinateSystem F) :
  rotation (transform_object obj cs1 cs2)
  = matmul (transpose (cs_R cs2)) (matmul (cs_R cs1) (rotation obj)).
Proof. reflexivity. Qed.

(** C1. [transform_point p cs1 cs2] is
    [cs2.R^T · (cs1.origin + cs1.R · p − cs2.origin)]: the point is taken to
    the global frame through the origin and orientation of [cs1], then to
    [cs2] through its origin and its transposed orientation.  Holds entry
    for entry, for every interpretation of the scalar operations. *)
Theorem transform_point_formula (p : Vec3 F) (cs1 cs2 : CoordinateSystem F) :
  transform_point p cs1 cs2
  = matvec (transpose (cs_R cs2))
           (vsub (vadd (origin cs1) (matvec (cs_R cs1) p)) (origin cs2)).
Proof. reflexivity. Qed.

(** C2. [transform_object obj cs1 cs2] has position
    [transform_point obj.position cs1 cs2] and rotation
    [cs2.R^T · (cs1.R · obj.rotation)]. *)
Theorem transform_object_fields (obj : Object F) (cs1 cs2 : CoordinateSystem F) :
  position (transform_object obj cs1 cs2)
  = transform_point (position obj) cs1 cs2
  ∧ rotation (transform_object obj cs1 cs2)
    = matmul (transpose (cs_R cs2)) (matmul (cs_R cs1) (rotation obj)).
Proof.
  split.
  - apply transform_object_position.
  - apply transform_object_rotation.
Qed.

(** C3. The orientation of a frame and the rotation of an object built from
    angles [x_deg], [y_deg], [z_deg] (each [0] when left out) are both the
    product [(Rz(z_deg) · Ry(y_deg)) · Rx(x_deg)] of the elementary
    rotations, in that order. *)
Theorem constructors_compose_z_y_x (o p : Vec3 F) (x_deg y_deg z_deg : option F) :
  let x := default s_zero x_deg in
  let y := default s_zero y_deg in
  let z := default s_zero z_deg in
  cs_R (CoordinateSystem_init o x_deg y_deg z_deg)
  = matmul (matmul (rot_z z) (rot_y y)) (rot_x x)
  ∧ rotation (Object_init p x_deg y_deg z_deg)
    = matmul (matmul (rot_z z) (rot_y y)) (rot_x x)
  ∧ origin (CoordinateSystem_init o x_deg y_deg z_deg) = o
  ∧ position (Object_init p x_deg y_deg z_deg) = p.
Proof. repeat split. Qed.

(** C8. On an object built with no angles (a point-only object) the
    position of [transform_object] is the very value [transform_point]
    gives on its position: the same operations on the same operands. *)
Theorem transform_object_point_only (pos : Vec3 F) (cs1 cs2 : CoordinateSystem F) :
  let obj := Object_init pos None None None in
  position (transform_object obj cs1 cs2)
  = transform_point (position obj) cs1 cs2
  ∧ position (transform_object obj cs1 cs2) = transform_point pos cs1 cs2.
Proof.
  intros obj. split.
  - apply transform_object_position.
  - rewrite transform_object_position. reflexivity.
Qed.

End ValueFacts.

(** ** The store layer computes the value layer and writes nothing old *)

Section StoreFacts.
Context {F : Type} `{Scalar F}.
Implicit Types h : gmap loc (pyobj F).

Lemma returns_ret {A} (a : A) h (Q : A → gmap loc (pyobj F) → Prop) :
  Q a h → returns (mret a) h Q.
Proof. intros HQ. exists a, h. split; [reflexivity | exact HQ]. Qed.

Lemma returns_bind {A B} (m : Py F A) (k : A → Py F B) h
    (Q : B → gmap loc (pyobj F) → Prop) :
  returns m h (λ a h', returns (k a) h' Q) → returns (m ≫= k) h Q.
Proof.
  intros (a & h' & Hm & b & h'' & Hk & HQ).
  exists b, h''. split; [| exact HQ].
  unfold mbind, py_bind. rewrite Hm. exact Hk.
Qed.

Lemma returns_mono {A} (m : Py F A) h (Q Q' : A → gmap loc (pyobj F) → Prop) :
  returns m h Q → (∀ a h', Q a h' → Q' a h') → returns m h Q'.
Proof. intros (a & h' & Hm & HQ) Himp. exists a, h'. auto. Qed.

Lemma fresh_unused h : h !! fresh (dom h) = None.
Proof. apply not_elem_of_dom, is_fresh. Qed.

Lemma returns_alloc (o : pyobj F) h (Q : loc → gmap loc (pyobj F) → Prop) :
  (∀ l, h !! l = None → Q l (<[l := o]> h)) → returns (alloc o) h Q.
Proof.
  intros HQ. exists (fresh (dom h)), (<[fresh (dom h) := o]> h).
  split; [reflexivity |]. apply HQ, fresh_unused.
Qed.

Lemma returns_get_vec l v h (Q : Vec3 F → gmap loc (pyobj F) → Prop) :
  h !! l = Some (Array1 v) → Q v h → returns (get_vec l) h Q.
Proof. intros Hl HQ. exists v, h. unfold get_vec. rewrite Hl. auto. Qed.

Lemma returns_get_mat l m h (Q : Mat3 F → gmap loc (pyobj F) → Prop) :
  h !! l = Some (Array2 m) → Q m h → returns (get_mat l) h Q.
Proof. intros Hl HQ. exists m, h. unfold get_mat. rewrite Hl. auto. Qed.

Lemma returns_get_origin cs o r h (Q : loc → gmap loc (pyobj F) → Prop) :
  h !! cs = Some (CsysInst o r) → Q o h → returns (get_origin cs) h Q.
Proof. intros Hl HQ. exists o, h. unfold get_origin. rewrite Hl. auto. Qed.

Lemma returns_get_R cs o r h (Q : loc → gmap loc (pyobj F) → Prop) :
  h !! cs = Some (CsysInst o r) → Q r h → returns (get_R cs) h Q.
Proof. intros Hl HQ. exists r, h. unfold get_R. rewrite Hl. auto. Qed.

Lemma returns_get_position obj p r h (Q : loc → gmap loc (pyobj F) → Prop) :
  h !! obj = Some (ObjInst p r) → Q p h → returns (get_position obj) h Q.
Proof. intros Hl HQ. exists p, h. unfold get_position. rewrite Hl. auto. Qed.

Lemma returns_get_rotation obj p r h (Q : loc → gmap loc (pyobj F) → Prop) :
  h !! obj = Some (ObjInst p r) → Q r h → returns (get_rotation obj) h Q.
Proof. intros Hl HQ. exists r, h. unfold get_rotation. rewrite Hl. auto. Qed.

Lemma returns_setattr_rotation obj p r r' h (Q : unit → gmap loc (pyobj F) → Prop) :
  h !! obj = Some (ObjInst p r) → Q tt (<[obj := ObjInst p r']> h) →
  returns (setattr_rotation obj r') h Q.
Proof.
  intros Hl HQ. exists tt, (<[obj := ObjInst p r']> h).
  unfold setattr_rotation. rewrite Hl. auto.
Qed.

Lemma keeps_refl h : keeps h h.
Proof. intros l o Hl. exact Hl. Qed.

Lemma keeps_trans h1 h2 h3 : keeps h1 h2 → keeps h2 h3 → keeps h1 h3.
Proof. intros H12 H23 l o Hl. auto. Qed.

Lemma keeps_insert_new h l o : h !! l = None → keeps h (<[l := o]> h).
Proof.
  intros Hnew l' o' Hl'. rewrite lookup_insert_ne; [exact Hl' |].
  intros ->. congruence.
Qed.

Lemma keeps_unused h h' l : keeps h h' → h' !! l = None → h !! l = None.
Proof.
  intros Hk Hl. destruct (h !! l) as [o |] eqn:E; [| reflexivity].
  apply Hk in E. congruence.
Qed.

Lemma returns_alloc_yields (o : pyobj F) h : returns (alloc o) h (yields o h).
Proof.
  apply returns_alloc. intros l Hl. split; [| split].
  - apply keeps_insert_new, Hl.
  - exact Hl.
  - apply lookup_insert_eq.
Qed.

Lemma np_array_spec a v h :
  h !! a = Some (Array1 v) → returns (np_array a) h (yields (Array1 v) h).
Proof.
  intros Ha. apply returns_bind, (returns_get_vec _ v); [exact Ha |].
  apply returns_alloc_yields.
Qed.

Lemma py_vadd_spec a b x y h :
  h !! a = Some (Array1 x) → h !! b = Some (Array1 y) →
  returns (py_vadd a b) h (yields (Array1 (vadd x y)) h).
Proof.
  intros Ha Hb. apply returns_bind, (returns_get_vec _ x); [exact Ha |].
  apply returns_bind, (returns_get_vec _ y); [exact Hb |].
  apply returns_alloc_yields.
Qed.

Lemma py_vsub_spec a b x y h :
  h !! a = Some (Array1 x) → h !! b = Some (Array1 y) →
  returns (py_vsub a b) h (yields (Array1 (vsub x y)) h).
Proof.
  intros Ha Hb. apply returns_bind, (returns_get_vec _ x); [exact Ha |].
  apply returns_bind, (returns_get_vec _ y); [exact Hb |].
  apply returns_alloc_yields.
Qed.

Lemma py_matvec_spec a b x y h :
  h !! a = Some (Array2 x) → h !! b = Some (Array1 y) →
  returns (py_matvec a b) h (yields (Array1 (matvec x y)) h).
Proof.
  intros Ha Hb. apply returns_bind, (returns_get_mat _ x); [exact Ha |].
  apply returns_bind, (returns_get_vec _ y); [exact Hb |].
  apply returns_alloc_yields.
Qed.

Lemma py_matTvec_spec a b x y h :
  h !! a = Some (Array2 x) → h !! b = Some (Array1 y) →
  returns (py_matTvec a b) h (yields (Array1 (matvec (transpose x) y)) h).
Proof.
  intros Ha Hb. apply returns_bind, (returns_get_mat _ x); [exact Ha |].
  apply returns_bind, (returns_get_vec _ y); [exact Hb |].
  apply returns_alloc_yields.
Qed.

Lemma py_matmul_spec a b x y h :
  h !! a = Some (Array2 x) → h !! b = Some (Array2 y) →
  returns (py_matmul a b) h (yields (Array2 (matmul x y)) h).
Proof.
  intros Ha Hb. apply returns_bind, (returns_get_mat _ x); [exact Ha |].
  apply returns_bind, (returns_get_mat _ y); [exact Hb |].
  apply returns_alloc_yields.
Qed.

Lemma py_matTmul_spec a b x y h :
  h !! a = Some (Array2 x) → h !! b = Some (Array2 y) →
  returns (py_matTmul a b) h (yields (Array2 (matmul (transpose x) y)) h).
Proof.
  intros Ha Hb. apply returns_bind, (returns_get_mat _ x); [exact Ha |].
  apply returns_bind, (returns_get_mat _ y); [exact Hb |].
  apply returns_alloc_yields.
Qed.

Lemma py_rot_x_spec deg h : returns (py_rot_x deg) h (yields (Array2 (rot_x deg)) h).
Proof. apply returns_alloc_yields. Qed.

Lemma py_rot_y_spec deg h : returns (py_rot_y deg) h (yields (Array2 (rot_y deg)) h).
Proof. apply returns_alloc_yields. Qed.

Lemma py_rot_z_spec deg h : returns (py_rot_z deg) h (yields (Array2 (rot_z deg)) h).
Proof. apply returns_alloc_yields. Qed.

(** One statement of the source that builds a new object: run it by its
    specification, carry every known fact over to the new store. *)
Ltac py_step spec :=
  apply returns_bind; eapply returns_mono; [eapply spec; eassumption |];
  let l := fresh "l" in
  let h' := fresh "h" in
  let Hk := fresh "Hk" in
  let Hn := fresh "Hn" in
  let Hl := fresh "Hl" in
  intros l h' (Hk & Hn & Hl);
  match goal with
  | Hkeep : keeps ?h0 ?hp |- _ =>
      match type of Hk with
      | keeps hp _ =>
          pose proof (keeps_unused _ _ _ Hkeep Hn);
          pose proof (keeps_trans _ _ _ Hkeep Hk);
          repeat match goal with
                 | Hx : hp !! _ = Some _ |- _ => apply Hk in Hx
                 end;
          clear Hkeep Hk Hn
      end
  end.

(** One attribute read. *)
Ltac py_read lem := apply returns_bind; eapply lem; [eassumption |].

Lemma py_transform_point_spec point cs1 cs2 v c1 c2 h :
  h !! point = Some (Array1 v) → frame_at h cs1 c1 → frame_at h cs2 c2 →
  returns (py_transform_point point cs1 cs2) h
          (yields (Array1 (transform_point v c1 c2)) h).
Proof.
  intros Hp (o1 & r1 & Hcs1 & Ho1 & Hr1) (o2 & r2 & Hcs2 & Ho2 & Hr2).
  pose proof (keeps_refl h) as Hkeep.
  unfold py_transform_point.
  py_step np_array_spec.
  py_read returns_get_origin.
  py_read returns_get_R.
  py_step py_matvec_spec.
  py_step py_vadd_spec.
  py_read returns_get_R.
  py_read returns_get_origin.
  py_step py_vsub_spec.
  eapply returns_mono; [eapply py_matTvec_spec; eassumption |].
  intros lr hr (Hk & Hn & Hlr). split; [| split].
  - eapply keeps_trans; eassumption.
  - eapply keeps_unused; eassumption.
  - exact Hlr.
Qed.

Lemma py_Object_spec pos v x_deg y_deg z_deg h :
  h !! pos = Some (Array1 v) →
  returns (py_Object pos x_deg y_deg z_deg) h (λ out h',
    keeps h h' ∧ h !! out = None
    ∧ ∃ p r, h' !! out = Some (ObjInst p r)
             ∧ h !! p = None ∧ h !! r = None
             ∧ h' !! p = Some (Array1 v)
             ∧ h' !! r = Some (Array2 (rotation (Object_init v x_deg y_deg z_deg)))).
Proof.
  intros Hpos. pose proof (keeps_refl h) as Hkeep.
  unfold py_Object.
  py_step np_array_spec.
  py_step py_rot_x_spec.
  py_step py_rot_y_spec.
  py_step py_rot_z_spec.
  py_step py_matmul_spec.
  py_step py_matmul_spec.
  eapply returns_mono; [apply returns_alloc_yields |].
  intros out hr (Hk & Hn & Hout). split; [| split].
  - eapply keeps_trans; eassumption.
  - eapply keeps_unused; eassumption.
  - exists l, l4. repeat split; try assumption; apply Hk; assumption.
Qed.

Lemma py_CoordinateSystem_spec org v x_deg y_deg z_deg h :
  h !! org = Some (Array1 v) →
  returns (py_CoordinateSystem org x_deg y_deg z_deg) h (λ cs h',
    keeps h h' ∧ h !! cs = None
    ∧ frame_at h' cs (CoordinateSystem_init v x_deg y_deg z_deg)).
Proof.
  intros Horg. pose proof (keeps_refl h) as Hkeep.
  unfold py_CoordinateSystem.
  py_step np_array_spec.
  py_step py_rot_x_spec.
  py_step py_rot_y_spec.
  py_step py_rot_z_spec.
  py_step py_matmul_spec.
  py_step py_matmul_spec.
  eapply returns_mono; [apply returns_alloc_yields |].
  intros cs hr (Hk & Hn & Hcs). split; [| split].
  - eapply keeps_trans; eassumption.
  - eapply keeps_unused; eassumption.
  - exists l, l4. repeat split; try assumption; apply Hk; assumption.
Qed.

(** The constructor of [Object] at the store: the new instance holds the
    value [Object_init] describes. *)
Lemma py_Object_object_at pos v x_deg y_deg z_deg h :
  h !! pos = Some (Array1 v) →
  returns (py_Object pos x_deg y_deg z_deg) h (λ out h',
    keeps h h' ∧ h !! out = None
    ∧ object_at h' out (Object_init v x_deg y_deg z_deg)).
Proof.
  intros Hpos. eapply returns_mono; [apply py_Object_spec; exact Hpos |].
  intros out h' (Hk & Hn & p & r & Hout & _ & _ & Hp & Hr).
  split; [exact Hk | split; [exact Hn |]]. exists p, r. auto.
Qed.

(** C9. [transform_object] writes to none of its arguments.  Run from any
    store in which [obj] refers to an object and [cs1], [cs2] to frames
    (aliased or not), it returns; every object and array the store held
    before, so the instance [obj] with its position and rotation arrays and
    both frames with their origin and orientation arrays, is as it was; and
    the reference it returns is a new instance, holding the value of
    [transform_object]. *)
Theorem transform_object_leaves_arguments
    (h : gmap loc (pyobj F)) (obj cs1 cs2 : loc)
    (b : Object F) (c1 c2 : CoordinateSystem F) :
  object_at h obj b → frame_at h cs1 c1 → frame_at h cs2 c2 →
  returns (py_transform_object obj cs1 cs2) h (λ out h',
    keeps h h'
    ∧ object_at h' obj b ∧ frame_at h' cs1 c1 ∧ frame_at h' cs2 c2
    ∧ h !! out = None ∧ out ≠ obj
    ∧ object_at h' out (transform_object b c1 c2)).
Proof.
  intros Hobj Hc1 Hc2.
  assert (Hgoal : returns (py_transform_object obj cs1 cs2) h (λ out h',
            keeps h h' ∧ h !! out = None
            ∧ object_at h' out (transform_object b c1 c2))).
  { destruct Hobj as (p & r & Hobj & Hp & Hr).
    pose proof Hc1 as (o1 & r1 & Hcs1 & Ho1 & Hr1).
    pose proof Hc2 as (o2 & r2 & Hcs2 & Ho2 & Hr2).
    pose proof (keeps_refl h) as Hkeep.
    unfold py_transform_object.
    py_read returns_get_position.
    py_step py_transform_point_spec.
    py_read returns_get_R.
    py_read returns_get_rotation.
    py_step py_matmul_spec.
    py_read returns_get_R.
    py_step py_matTmul_spec.
    apply returns_bind.
    eapply returns_mono; [eapply py_Object_spec; eassumption |].
    intros out h4 (Hk4 & Hn4 & q & ri & Hout & Hq0 & Hri0 & Hq & Hri).
    apply returns_bind.
    eapply returns_setattr_rotation; [exact Hout |].
    apply returns_ret.
    match goal with
    | Hkeep : keeps h ?h3 |- _ =>
        pose proof (keeps_trans _ _ _ Hkeep Hk4) as Hkeep4;
        pose proof (keeps_unused _ _ _ Hkeep Hn4) as Hfresh
    end.
    split; [| split].
    - intros a o Ha. rewrite lookup_insert_ne; [apply Hkeep4, Ha |].
      intros ->. congruence.
    - exact Hfresh.
    - eexists q, _. split; [apply lookup_insert_eq | split].
      + rewrite lookup_insert_ne; [exact Hq | congruence].
      + rewrite lookup_insert_ne; [apply Hk4; eassumption |].
        intros ->. congruence. }
  eapply returns_mono; [exact Hgoal |].
  intros out h' (Hk & Hn & Hout).
  destruct Hobj as (p & r & Hobj & Hp & Hr).
  destruct Hc1 as (o1 & r1 & Hcs1 & Ho1 & Hr1).
  destruct Hc2 as (o2 & r2 & Hcs2 & Ho2 & Hr2).
  repeat split; try assumption.
  - exists p, r. auto.
  - exists o1, r1. auto.
  - exists o2, r2. auto.
  - intros ->. congruence.
Qed.

(** X17. [transform_point] at the store.  Called on an array and two
    frames (aliased or not) it returns, the array it returns is new and
    holds the value of [transform_point], and nothing that existed is
    touched: the copy [np.array(point, float)] and every intermediate are
    arrays of their own. *)
Theorem transform_point_returns_new_array
    (h : gmap loc (pyobj F)) (point cs1 cs2 : loc)
    (v : Vec3 F) (c1 c2 : CoordinateSystem F) :
  h !! point = Some (Array1 v) → frame_at h cs1 c1 → frame_at h cs2 c2 →
  returns (py_transform_point point cs1 cs2) h (λ l h',
    keeps h h' ∧ h !! l = None ∧ l ≠ point
    ∧ h' !! l = Some (Array1 (transform_point v c1 c2))).
Proof.
  intros Hp Hc1 Hc2.
  eapply returns_mono; [apply py_transform_point_spec; eassumption |].
  intros l h' (Hk & Hn & Hl).
  repeat split; try assumption. intros ->. congruence.
Qed.

(** *** Runs from any store, well-formed or not *)

Lemma ensures_bind {A B} (m : Py F A) (k : A → Py F B) h
    (Q : B → gmap loc (pyobj F) → Prop) :
  ensures m h (λ a h', ensures (k a) h' Q) → ensures (m ≫= k) h Q.
Proof.
  intros Hm b h'' Hrun. unfold mbind, py_bind in Hrun.
  destruct (m h) as [[a h'] |] eqn:E; [| discriminate].
  exact (Hm a h' E b h'' Hrun).
Qed.

Lemma ensures_mono {A} (m : Py F A) h (Q Q' : A → gmap loc (pyobj F) → Prop) :
  ensures m h Q → (∀ a h', Q a h' → Q' a h') → ensures m h Q'.
Proof. intros Hm Himp a h' Hrun. apply Himp, Hm, Hrun. Qed.

(** A run that can satisfy no postcondition raises. *)
Lemma ensures_False_raises {A} (m : Py F A) h :
  ensures m h (λ _ _, False) → m h = None.
Proof.
  intros Hm. destruct (m h) as [[a h'] |] eqn:E; [| reflexivity].
  destruct (Hm a h' E).
Qed.

(** What a run is sure to return it ensures. *)
Lemma returns_ensures {A} (m : Py F A) h (Q : A → gmap loc (pyobj F) → Prop) :
  returns m h Q → ensures m h Q.
Proof.
  intros (a & h' & Hm & HQ) a' h'' Hrun. rewrite Hm in Hrun.
  injection Hrun as <- <-. exact HQ.
Qed.

Lemma ensures_alloc (o : pyobj F) h : ensures (alloc o) h (yields o h).
Proof. apply returns_ensures, returns_alloc_yields. Qed.

Lemma ensures_get_vec l h (Q : Vec3 F → gmap loc (pyobj F) → Prop) :
  (∀ v, h !! l = Some (Array1 v) → Q v h) → ensures (get_vec l) h Q.
Proof.
  intros HQ v h' Hrun. unfold get_vec in Hrun.
  destruct (h !! l) as [[] |] eqn:E; try discriminate.
  injection Hrun as <- <-. apply HQ. reflexivity.
Qed.

Lemma ensures_get_mat l h (Q : Mat3 F → gmap loc (pyobj F) → Prop) :
  (∀ m, h !! l = Some (Array2 m) → Q m h) → ensures (get_mat l) h Q.
Proof.
  intros HQ v h' Hrun. unfold get_mat in Hrun.
  destruct (h !! l) as [[] |] eqn:E; try discriminate.
  injection Hrun as <- <-. apply HQ. reflexivity.
Qed.

Lemma ensures_get_origin cs h (Q : loc → gmap loc (pyobj F) → Prop) :
  (∀ o r, h !! cs = Some (CsysInst o r) → Q o h) → ensures (get_origin cs) h Q.
Proof.
  intros HQ v h' Hrun. unfold get_origin in Hrun.
  destruct (h !! cs) as [[] |] eqn:E; try discriminate.
  injection Hrun as <- <-. eapply HQ. reflexivity.
Qed.

Lemma ensures_get_R cs h (Q : loc → gmap loc (pyobj F) → Prop) :
  (∀ o r, h !! cs = Some (CsysInst o r) → Q r h) → ensures (get_R cs) h Q.
Proof.
  intros HQ v h' Hrun. unfold get_R in Hrun.
  destruct (h !! cs) as [[] |] eqn:E; try discriminate.
  injection Hrun as <- <-. eapply HQ. reflexivity.
Qed.

Lemma ensures_get_position obj h (Q : loc → gmap loc (pyobj F) → Prop) :
  (∀ p r, h !! obj = Some (ObjInst p r) → Q p h) → ensures (get_position obj) h Q.
Proof.
  intros HQ v h' Hrun. unfold get_position in Hrun.
  destruct (h !! obj) as [[] |] eqn:E; try discriminate.
  injection Hrun as <- <-. eapply HQ. reflexivity.
Qed.

Lemma ensures_get_rotation obj h (Q : loc → gmap loc (pyobj F) → Prop) :
  (∀ p r, h !! obj = Some (ObjInst p r) → Q r h) → ensures (get_rotation obj) h Q.
Proof.
  intros HQ v h' Hrun. unfold get_rotation in Hrun.
  destruct (h !! obj) as [[] |] eqn:E; try discriminate.
  injection Hrun as <- <-. eapply HQ. reflexivity.
Qed.

(** Each array operation, from any store: what it returns is new and
    nothing old is touched. *)
Ltac new_array :=
  repeat (apply ensures_bind;
          first [apply ensures_get_vec | apply ensures_get_mat]; intros ? ?);
  eapply ensures_mono; [apply ensures_alloc |];
  intros ? ? ?; eexists; eassumption.

Lemma np_array_new a h :
  ensures (np_array a) h (λ l h', ∃ o, yields o h l h').
Proof. unfold np_array. new_array. Qed.

Lemma py_vadd_new a b h :
  ensures (py_vadd a b) h (λ l h', ∃ o, yields o h l h').
Proof. unfold py_vadd. new_array. Qed.

Lemma py_matvec_new a b h :
  ensures (py_matvec a b) h (λ l h', ∃ o, yields o h l h').
Proof. unfold py_matvec. new_array. Qed.

(** One allocating statement, from any store. *)
Ltac any_step lem :=
  apply ensures_bind; eapply ensures_mono; [apply lem |];
  let l := fresh "l" in
  let h' := fresh "h" in
  let o := fresh "o" in
  let Hk := fresh "Hk" in
  let Hn := fresh "Hn" in
  let Hl := fresh "Hl" in
  intros l h' (o & Hk & Hn & Hl);
  match goal with
  | Hkeep : keeps ?h0 ?hp |- _ =>
      match type of Hk with
      | keeps hp _ =>
          pose proof (keeps_unused _ _ _ Hkeep Hn);
          pose proof (keeps_trans _ _ _ Hkeep Hk);
          repeat match goal with
                 | Hx : hp !! _ = Some _ |- _ => apply Hk in Hx
                 end;
          clear Hkeep Hk Hn
      end
  end.

(** One attribute read, from any store. *)
Ltac any_read lem :=
  apply ensures_bind; apply lem;
  let a := fresh "a" in
  let b := fresh "b" in
  let Hattr := fresh "Hattr" in
  intros a b Hattr.

(** X2. Passing an instance of the wrong class raises: [transform_point]
    with an [Object] in the place of either frame (there is no attribute
    [origin] or [R] to read), and [transform_object] with a frame in the
    place of the object (no attribute [position]). *)
Theorem wrong_instance_raises (h : gmap loc (pyobj F)) (bad p r : loc) :
  (h !! bad = Some (ObjInst p r) →
   ∀ point cs, py_transform_point point bad cs h = None
               ∧ py_transform_point point cs bad h = None)
  ∧ (h !! bad = Some (CsysInst p r) →
     ∀ cs1 cs2, py_transform_object bad cs1 cs2 h = None).
Proof.
  split.
  - intros Hbad point cs. pose proof (keeps_refl h) as Hkeep. split.
    + apply ensures_False_raises. unfold py_transform_point.
      any_step np_array_new.
      any_read ensures_get_origin. congruence.
    + apply ensures_False_raises. unfold py_transform_point.
      any_step np_array_new.
      any_read ensures_get_origin.
      any_read ensures_get_R.
      any_step py_matvec_new.
      any_step py_vadd_new.
      any_read ensures_get_R. congruence.
  - intros Hbad cs1 cs2. apply ensures_False_raises.
    unfold py_transform_object.
    any_read ensures_get_position. congruence.
Qed.

(** X3. Both constructors copy their array argument.  Called on an array
    [a], [CoordinateSystem(a, ...)] and [Object(a, ...)] return a new
    instance whose two attributes refer to arrays that did not exist before,
    so neither is [a] itself: the first holds the entries of [a], the second
    the product of the elementary rotations.  Nothing that existed is
    touched. *)
Theorem constructors_copy_their_argument
    (h : gmap loc (pyobj F)) (a : loc) (v : Vec3 F) (x_deg y_deg z_deg : option F) :
  h !! a = Some (Array1 v) →
  returns (py_CoordinateSystem a x_deg y_deg z_deg) h (λ cs h',
    keeps h h' ∧ h !! cs = None
    ∧ ∃ o r, h' !! cs = Some (CsysInst o r)
             ∧ h !! o = None ∧ h !! r = None ∧ o ≠ a ∧ r ≠ a
             ∧ h' !! o = Some (Array1 v)
             ∧ h' !! r = Some (Array2 (cs_R (CoordinateSystem_init v x_deg y_deg z_deg))))
  ∧ returns (py_Object a x_deg y_deg z_deg) h (λ ob h',
      keeps h h' ∧ h !! ob = None
      ∧ ∃ p r, h' !! ob = Some (ObjInst p r)
               ∧ h !! p = None ∧ h !! r = None ∧ p ≠ a ∧ r ≠ a
               ∧ h' !! p = Some (Array1 v)
               ∧ h' !! r = Some (Array2 (rotation (Object_init v x_deg y_deg z_deg)))).
Proof.
  intros Ha. split.
  - assert (Ha0 : is_Some (h !! a)) by eauto.
    pose proof (keeps_refl h) as Hkeep.
    unfold py_CoordinateSystem.
    py_step np_array_spec.
    py_step py_rot_x_spec.
    py_step py_rot_y_spec.
    py_step py_rot_z_spec.
    py_step py_matmul_spec.
    py_step py_matmul_spec.
    eapply returns_mono; [apply returns_alloc_yields |].
    intros cs hr (Hk & Hn & Hcs). split; [| split].
    + eapply keeps_trans; eassumption.
    + eapply keeps_unused; eassumption.
    + destruct Ha0 as [va Ha0]. eexists _, _. split; [exact Hcs |].
      repeat split; try assumption; try (intros ->; congruence);
        apply Hk; assumption.
  - eapply returns_mono; [apply py_Object_spec; exact Ha |].
    intros ob h' (Hk & Hn & p & r & Hob & Hp0 & Hr0 & Hp & Hr).
    split; [exact Hk | split; [exact Hn |]].
    exists p, r. repeat split; try assumption; intros ->; congruence.
Qed.

(** X4. The object [transform_object] returns shares no array with what
    existed: its position and its rotation are arrays created by the call,
    so writing into them later cannot reach the input object or the
    frames. *)
Theorem transform_object_result_unshared
    (h : gmap loc (pyobj F)) (obj cs1 cs2 : loc)
    (b : Object F) (c1 c2 : CoordinateSystem F) :
  object_at h obj b → frame_at h cs1 c1 → frame_at h cs2 c2 →
  returns (py_transform_object obj cs1 cs2) h (λ out h',
    ∃ p r, h' !! out = Some (ObjInst p r)
           ∧ h !! p = None ∧ h !! r = None ∧ p ≠ r
           ∧ h' !! p = Some (Array1 (transform_point (position b) c1 c2))
           ∧ h' !! r = Some (Array2 (matmul (transpose (cs_R c2))
                                            (matmul (cs_R c1) (rotation b))))).
Proof.
  intros (p & r & Hobj & Hp & Hr) Hc1 Hc2.
  pose proof Hc1 as (o1 & r1 & Hcs1 & Ho1 & Hr1).
  pose proof Hc2 as (o2 & r2 & Hcs2 & Ho2 & Hr2).
  pose proof (keeps_refl h) as Hkeep.
  unfold py_transform_object.
  py_read returns_get_position.
  py_step py_transform_point_spec.
  py_read returns_get_R.
  py_read returns_get_rotation.
  py_step py_matmul_spec.
  py_read returns_get_R.
  py_step py_matTmul_spec.
  apply returns_bind.
  eapply returns_mono; [eapply py_Object_spec; eassumption |].
  intros out h4 (Hk4 & Hn4 & q & ri & Hout & Hq0 & Hri0 & Hq & Hri).
  apply returns_bind.
  eapply returns_setattr_rotation; [exact Hout |].
  apply returns_ret.
  match goal with
  | Hkeep : keeps h ?h3 |- _ =>
      pose proof (keeps_unused _ _ _ Hkeep Hq0) as Hqfresh
  end.
  eexists q, _. split; [apply lookup_insert_eq |].
  repeat split.
  - exact Hqfresh.
  - eassumption.
  - intros ->. congruence.
  - rewrite lookup_insert_ne; [exact Hq | congruence].
  - rewrite lookup_insert_ne; [apply Hk4; eassumption |].
    intros ->. congruence.
Qed.

End StoreFacts.

(** ** Matrix algebra over the real numbers *)

(** Array operations down to the arithmetic on their entries. *)
Ltac unfold_arrays :=
  cbv [matmul rowmat matvec dot transpose col0 col1 col2 vadd vsub det adj I3
       rot_x rot_y rot_z deg_arg from_option Datatypes.id
       row0 row1 row2 vx vy vz
       s_add s_sub s_mul s_neg s_zero s_one np_cos np_sin np_radians
       real_scalar].

(** An equation between arrays as the equations between their entries. *)
Ltac entrywise :=
  lazymatch goal with
  | |- @eq (Mat3 _) _ _ => f_equal; f_equal
  | |- @eq (Vec3 _) _ _ => f_equal
  | |- _ => idtac
  end.

(** Entry-by-entry proof of an identity between arrays. *)
Ltac by_entries :=
  repeat match goal with
         | m : Mat3 R |- _ => destruct m as [[? ? ?] [? ? ?] [? ? ?]]
         | v : Vec3 R |- _ => destruct v as [? ? ?]
         end;
  unfold_arrays; entrywise; ring.

Section RealAlgebra.
Implicit Types (a b c m : Mat3 R) (u v w : Vec3 R).

Lemma matmul_assoc a b c : matmul (matmul a b) c = matmul a (matmul b c).
Proof. by_entries. Qed.

Lemma matmul_I3_l m : matmul I3 m = m.
Proof. by_entries. Qed.

Lemma matmul_I3_r m : matmul m I3 = m.
Proof. by_entries. Qed.

Lemma transpose_involutive m : transpose (transpose m) = m.
Proof. by_entries. Qed.

Lemma transpose_matmul a b :
  transpose (matmul a b) = matmul (transpose b) (transpose a).
Proof. by_entries. Qed.

Lemma transpose_I3 : transpose (I3 (F := R)) = I3.
Proof. reflexivity. Qed.

Lemma matvec_matmul a b v : matvec (matmul a b) v = matvec a (matvec b v).
Proof. by_entries. Qed.

Lemma matvec_I3 v : matvec I3 v = v.
Proof. by_entries. Qed.


Lemma det_matmul a b : det (matmul a b) = det a * det b.
Proof. by_entries. Qed.

Lemma det_transpose m : det (transpose m) = det m.
Proof. by_entries. Qed.

Lemma det_I3 : det (I3 (F := R)) = 1.
Proof. unfold_arrays. ring. Qed.

(** The adjugate is a left inverse when the determinant is [1]. *)
Lemma adj_matmul m : det m = 1 → matmul (adj m) m = I3.
Proof.
  destruct m as [[a b c] [d e f] [g h i]]. unfold_arrays. intros Hdet.
  entrywise; first [ring | (etransitivity; [| exact Hdet]); ring].
Qed.

(** A proper rotation is also orthonormal from the left: [M^T · M = I]. *)
Lemma is_rotation_left m : is_rotation m → matmul (transpose m) m = I3.
Proof.
  intros [Hortho Hdet].
  assert (Hadj : adj m = transpose m).
  { rewrite <- (matmul_I3_r (adj m)), <- Hortho, <- matmul_assoc.
    rewrite (adj_matmul m Hdet). apply matmul_I3_l. }
  rewrite <- Hadj. apply adj_matmul, Hdet.
Qed.

Lemma is_rotation_I3 : is_rotation I3.
Proof. split; [apply matmul_I3_l | apply det_I3]. Qed.

Lemma is_rotation_matmul a b :
  is_rotation a → is_rotation b → is_rotation (matmul a b).
Proof.
  intros [Ha Hda] [Hb Hdb]. split.
  - rewrite transpose_matmul, matmul_assoc, <- (matmul_assoc b).
    rewrite Hb, matmul_I3_l. exact Ha.
  - rewrite det_matmul, Hda, Hdb. ring.
Qed.

Lemma is_rotation_transpose m : is_rotation m → is_rotation (transpose m).
Proof.
  intros Hm. split.
  - rewrite transpose_involutive. apply is_rotation_left, Hm.
  - rewrite det_transpose. apply Hm.
Qed.

(** *** The elementary rotations *)

Lemma unit_circle (t : R) : sin t * sin t + cos t * cos t = 1.
Proof. pose proof (sin2_cos2 t) as Hsc. unfold Rsqr in Hsc. exact Hsc. Qed.

(** A rotation block on the unit circle gives a proper rotation. *)
Ltac by_unit_circle t :=
  pose proof (unit_circle t) as Hsc;
  generalize dependent (cos t); generalize dependent (sin t);
  intros s co Hsc; split;
  [entrywise; nra | nra].

Lemma rot_x_is_rotation (deg : R) : is_rotation (rot_x deg).
Proof. unfold is_rotation. unfold_arrays. by_unit_circle (deg * (PI / 180)). Qed.

Lemma rot_y_is_rotation (deg : R) : is_rotation (rot_y deg).
Proof. unfold is_rotation. unfold_arrays. by_unit_circle (deg * (PI / 180)). Qed.

Lemma rot_z_is_rotation (deg : R) : is_rotation (rot_z deg).
Proof. unfold is_rotation. unfold_arrays. by_unit_circle (deg * (PI / 180)). Qed.

Lemma CoordinateSystem_init_is_rotation (o : Vec3 R) (x_deg y_deg z_deg : option R) :
  is_rotation (cs_R (CoordinateSystem_init o x_deg y_deg z_deg)).
Proof.
  apply is_rotation_matmul; [apply is_rotation_matmul |].
  - apply rot_z_is_rotation.
  - apply rot_y_is_rotation.
  - apply rot_x_is_rotation.
Qed.

Lemma Object_init_is_rotation (p : Vec3 R) (x_deg y_deg z_deg : option R) :
  is_rotation (rotation (Object_init p x_deg y_deg z_deg)).
Proof.
  apply is_rotation_matmul; [apply is_rotation_matmul |].
  - apply rot_z_is_rotation.
  - apply rot_y_is_rotation.
  - apply rot_x_is_rotation.
Qed.

Lemma transform_object_is_rotation (obj : Object R) (cs1 cs2 : CoordinateSystem R) :
  is_rotation (rotation obj) → is_rotation (cs_R cs1) → is_rotation (cs_R cs2) →
  is_rotation (rotation (transform_object obj cs1 cs2)).
Proof.
  intros Hobj H1 H2. rewrite transform_object_rotation.
  apply is_rotation_matmul; [apply is_rotation_transpose, H2 |].
  apply is_rotation_matmul; assumption.
Qed.

(** *** Round trips *)



Lemma allclose_refl (v : Vec3 R) : allclose v v.
Proof.
  unfold allclose, isclose. rewrite !Rminus_diag, Rabs_R0.
  pose proof (Rabs_pos (vx v)). pose proof (Rabs_pos (vy v)).
  pose proof (Rabs_pos (vz v)). repeat split; lra.
Qed.


(** X15. The invariant along a run: every object the program can hold, built
    by the constructor and taken through any number of [transform_object]
    calls between frames the constructor builds, carries a proper rotation. *)
Lemma program_object_is_rotation (obj : Object R) :
  program_object obj → is_rotation (rotation obj).
Proof.
  induction 1 as [p x y z | obj o1 o2 x1 y1 z1 x2 y2 z2 Hobj IH].
  - apply Object_init_is_rotation.
  - apply transform_object_is_rotation;
      [exact IH | apply CoordinateSystem_init_is_rotation ..].
Qed.

End RealAlgebra.

(** ** Angles of the scenarios *)

Section Scenarios.

Lemma rot_x_0 : rot_x (F := R) 0 = I3.
Proof.
  unfold_arrays. replace (0 * (PI / 180)) with 0 by ring.
  rewrite cos_0, sin_0, Ropp_0. reflexivity.
Qed.

Lemma rot_y_0 : rot_y (F := R) 0 = I3.
Proof.
  unfold_arrays. replace (0 * (PI / 180)) with 0 by ring.
  rewrite cos_0, sin_0, Ropp_0. reflexivity.
Qed.

Lemma rot_z_0 : rot_z (F := R) 0 = I3.
Proof.
  unfold_arrays. replace (0 * (PI / 180)) with 0 by ring.
  rewrite cos_0, sin_0, Ropp_0. reflexivity.
Qed.

(** A frame turned about Z only. *)
Lemma CoordinateSystem_init_z_only (o : Vec3 R) (z_deg : R) :
  cs_R (CoordinateSystem_init o (Some 0) (Some 0) (Some z_deg)) = rot_z z_deg.
Proof.
  cbv [CoordinateSystem_init deg_arg from_option Datatypes.id cs_R].
  rewrite rot_x_0, rot_y_0, !matmul_I3_r. reflexivity.
Qed.

Lemma rot_z_90 :
  rot_z (F := R) 90 = mkMat (mkVec 0 (-1) 0) (mkVec 1 0 0) (mkVec 0 0 1).
Proof.
  unfold_arrays. replace (90 * (PI / 180)) with (PI / 2) by field.
  rewrite cos_PI2, sin_PI2. f_equal.
Qed.

(** The quarter turn takes the point on +X of the first frame to the point on
    -Y of the second. *)
Lemma quarter_turn_value :
  transform_point (mkVec 1 0 0) quarter_cs1 quarter_cs2 = mkVec 0 (-1) 0.
Proof.
  unfold transform_point, quarter_cs1, quarter_cs2.
  rewrite !CoordinateSystem_init_z_only, rot_z_0, rot_z_90.
  unfold_arrays. cbn. entrywise; ring.
Qed.

(** [pi] to five decimals, from the Machin-like series of the library. *)
Lemma PI_5_decimals : 314159 / 100000 < PI < 31416 / 10000.
Proof.
  pose proof (PI_2_3_7_ineq 2) as [Hlo Hhi].
  unfold tg_alt, PI_2_3_7_tg, Ratan_seq in Hlo, Hhi.
  simpl in Hlo, Hhi. split; lra.
Qed.

(** Sine and cosine of six degrees, from the Taylor bounds. *)
Lemma sin_6_degrees :
  1045282 / 10000000 < sin (6 * (PI / 180)) < 1045288 / 10000000.
Proof.
  pose proof PI_5_decimals as [Hlo Hhi].
  set (x := 6 * (PI / 180)).
  assert (Hx : 314159 / 3000000 < x < 31416 / 300000) by (unfold x; lra).
  destruct (sin_bound x 0) as [Hs1 Hs2]; [lra | unfold x; lra |].
  unfold sin_approx, sin_term in Hs1, Hs2. simpl in Hs1, Hs2.
  assert (H3 : (314159 / 3000000) ^ 3 <= x ^ 3 <= (31416 / 300000) ^ 3)
    by (split; apply pow_incr; lra).
  assert (H5 : x ^ 5 <= (31416 / 300000) ^ 5) by (apply pow_incr; lra).
  simpl in H3, H5. split; lra.
Qed.

Lemma cos_6_degrees :
  9945168 / 10000000 < cos (6 * (PI / 180)) < 9945220 / 10000000.
Proof.
  pose proof PI_5_decimals as [Hlo Hhi].
  set (x := 6 * (PI / 180)).
  assert (Hx : 314159 / 3000000 < x < 31416 / 300000) by (unfold x; lra).
  destruct (cos_bound x 0) as [Hc1 Hc2]; [lra | lra |].
  unfold cos_approx, cos_term in Hc1, Hc2. simpl in Hc1, Hc2.
  assert (H2 : (314159 / 3000000) ^ 2 <= x ^ 2 <= (31416 / 300000) ^ 2)
    by (split; apply pow_incr; lra).
  assert (H4 : x ^ 4 <= (31416 / 300000) ^ 4) by (apply pow_incr; lra).
  simpl in H2, H4. split; lra.
Qed.

(** The value of the self-test in closed form. *)
Lemma main_result_value :
  let c := cos (6 * (PI / 180)) in
  let s := sin (6 * (PI / 180)) in
  main_result = mkVec (- (9 * c) - 5 * s) (9 * s - 5 * c) (-3).
Proof.
  unfold main_result, transform_point, main_cs1, main_cs2, main_p.
  rewrite !CoordinateSystem_init_z_only, rot_z_0.
  unfold_arrays. cbn. entrywise; ring.
Qed.

End Scenarios.

(** ** The properties over the real numbers *)




(** The quarter turn does not give [[0,1,0]]: the second entry is off by 2. *)
Lemma quarter_turn_not_plus_y :
  ¬ within 1 (transform_point (mkVec 1 0 0) quarter_cs1 quarter_cs2) (mkVec 0 1 0).
Proof.
  rewrite quarter_turn_value. unfold within. cbn. intros (_ & Hy & _).
  replace (-1 - 1) with (-2) in Hy by ring.
  rewrite Rabs_left in Hy; lra.
Qed.

(** C6, as the code has it. With both frames at the origin, the first with
    angles (0,0,0) and the second with angles (0,0,90), [transform_point]
    takes [[1,0,0]] to [[0,-1,0]]: a point on +X of the first frame lies on
    -Y of the frame turned by +90 degrees about Z. *)
Theorem quarter_turn_minus_y :
  transform_point (mkVec 1 0 0) quarter_cs1 quarter_cs2 = mkVec 0 (-1) 0
  ∧ allclose (transform_point (mkVec 1 0 0) quarter_cs1 quarter_cs2)
             (mkVec 0 (-1) 0).
Proof.
  split; [apply quarter_turn_value |].
  rewrite quarter_turn_value. apply allclose_refl.
Qed.

Lemma main_result_entries :
  - (94734 / 10000) < vx main_result < - (94732 / 10000)
  ∧ - (40319 / 10000) < vy main_result < - (40318 / 10000)
  ∧ vz main_result = -3.
Proof.
  rewrite main_result_value. cbn.
  pose proof sin_6_degrees. pose proof cos_6_degrees.
  repeat split; lra.
Qed.

(** The self-test does not give [[-8.947, -5.209, -3.0]]: the first entry is
    off by more than a half. *)
Lemma self_test_not_stated_numbers :
  ¬ within (1 / 4) main_result (mkVec (- (8947 / 1000)) (- (5209 / 1000)) (-3)).
Proof.
  destruct main_result_entries as ((Hx1 & Hx2) & _ & _).
  unfold within. cbn [vx vy vz]. intros (Hx & _).
  rewrite Rabs_left in Hx; lra.
Qed.

(** C7, as the code has it. For [cs1] at [[0,0,0]] with angles (0,0,0),
    [cs2] at [[10,5,3]] with angles (0,0,6) and [p = [1,0,0]], the result of
    [transform_point] is the value [expected] of the self-test,
    [cs2.R^T · (cs1.origin + cs1.R · p − cs2.origin)], so [np.allclose] holds
    of the two; to three decimals that value is [[-9.473, -4.032, -3.0]]. *)
Theorem self_test_value :
  main_result = main_expected
  ∧ allclose main_result main_expected
  ∧ within (1 / 2000) main_result
           (mkVec (- (9473 / 1000)) (- (4032 / 1000)) (-3)).
Proof.
  split; [reflexivity | split; [apply allclose_refl |]].
  destruct main_result_entries as ((Hx1 & Hx2) & (Hy1 & Hy2) & Hz).
  unfold within. cbn [vx vy vz]. rewrite Hz.
  repeat split; apply Rabs_le; lra.
Qed.


Lemma transform_object_leaves_arguments_witness :
  let b := mkObject (mkVec 1 0 0) I3 in
  let c := mkCoordinateSystem (mkVec 10 5 3) I3 in
  object_at shared_store 3%positive b
  ∧ frame_at shared_store 5%positive c
  ∧ returns (py_transform_object 3%positive 5%positive 5%positive) shared_store
      (λ out h',
         keeps shared_store h'
         ∧ object_at h' 3%positive b
         ∧ frame_at h' 5%positive c
         ∧ frame_at h' 5%positive c
         ∧ shared_store !! out = None ∧ out ≠ 3%positive
         ∧ object_at h' out (transform_object b c c)).
Proof.
  intros b c.
  assert (Hobj : object_at shared_store 3%positive b)
    by (exists 1%positive, 2%positive; repeat split; reflexivity).
  assert (Hcs : frame_at shared_store 5%positive c)
    by (exists 4%positive, 2%positive; repeat split; reflexivity).
  split; [exact Hobj | split; [exact Hcs |]].
  exact (transform_object_leaves_arguments shared_store 3%positive 5%positive
           5%positive b c c Hobj Hcs Hcs).
Defined.

(** ** Further properties of the transforms over the real numbers *)

Section TransformFacts.
Implicit Types (m : Mat3 R) (u v w p q : Vec3 R).

Lemma vadd_vsub_same u w : vsub (vadd u w) u = w.
Proof. by_entries. Qed.

Lemma vadd_vsub_back u w : vadd u (vsub w u) = w.
Proof. by_entries. Qed.

Lemma vadd_zero_l v : vadd (mkVec 0 0 0) v = v.
Proof. by_entries. Qed.

Lemma vsub_zero_r v : vsub v (mkVec 0 0 0) = v.
Proof. by_entries. Qed.

Lemma vadd_matvec m u v : vadd (matvec m u) (matvec m v) = matvec m (vadd u v).
Proof. by_entries. Qed.

Lemma vsub_matvec m u v : vsub (matvec m u) (matvec m v) = matvec m (vsub u v).
Proof. by_entries. Qed.

Lemma vsub_shift u v w : vsub (vsub (vadd u v) w) (vsub u w) = v.
Proof. by_entries. Qed.

Lemma vsub_common u v w x :
  vsub (vsub (vadd u v) x) (vsub (vadd u w) x) = vsub v w.
Proof. by_entries. Qed.

Lemma dot_matvec m v :
  dot (matvec m v) (matvec m v) = dot v (matvec (matmul (transpose m) m) v).
Proof. by_entries. Qed.

Lemma dot_I3 v : dot v (matvec I3 v) = dot v v.
Proof. rewrite matvec_I3. reflexivity. Qed.

(** With every angle left out the orientation is the identity. *)
Lemma CoordinateSystem_init_default (o : Vec3 R) :
  cs_R (CoordinateSystem_init o None None None) = I3.
Proof.
  change (cs_R (CoordinateSystem_init o (Some 0) (Some 0) (Some 0)) = I3).
  rewrite CoordinateSystem_init_z_only. apply rot_z_0.
Qed.

Lemma period_cos (t : R) : cos (t + 2 * PI) = cos t.
Proof. rewrite cos_plus, cos_2PI, sin_2PI. ring. Qed.

Lemma period_sin (t : R) : sin (t + 2 * PI) = sin t.
Proof. rewrite sin_plus, cos_2PI, sin_2PI. ring. Qed.

(** X5. The frame [CoordinateSystem([0,0,0])] is the global frame: taking a
    point of any frame [cs] into it gives [cs.origin + cs.R · p], and taking
    a global point into [cs] gives [cs.R^T · (g − cs.origin)].  So the
    attributes of a frame are its position and orientation in the frame with
    no offset and no angles. *)
Theorem default_frame_is_global (cs : CoordinateSystem R) (p g : Vec3 R) :
  transform_point p cs global_frame = vadd (origin cs) (matvec (cs_R cs) p)
  ∧ transform_point g global_frame cs
    = matvec (transpose (cs_R cs)) (vsub g (origin cs)).
Proof.
  unfold transform_point, global_frame.
  rewrite CoordinateSystem_init_default. cbn [origin CoordinateSystem_init].
  rewrite transpose_I3, !matvec_I3, vsub_zero_r, vadd_zero_l. split; reflexivity.
Qed.

(** X6. With every angle left out a frame and an object are unrotated, and
    between two such frames [transform_point] is the translation
    [p + o1 − o2]. *)
Theorem default_angles_give_translation (o1 o2 p : Vec3 R) :
  cs_R (CoordinateSystem_init o1 None None None) = I3
  ∧ rotation (Object_init p None None None) = I3
  ∧ transform_point p (CoordinateSystem_init o1 None None None)
                      (CoordinateSystem_init o2 None None None)
    = vsub (vadd o1 p) o2.
Proof.
  split; [apply CoordinateSystem_init_default | split].
  - apply (CoordinateSystem_init_default p).
  - unfold transform_point. rewrite !CoordinateSystem_init_default.
    cbn [origin CoordinateSystem_init].
    rewrite transpose_I3, !matvec_I3. reflexivity.
Qed.

(** X7. A transform from a frame to itself changes nothing: the point comes
    back as it was, and so do the position and the rotation of an object. *)
Theorem transform_to_same_frame
    (p o : Vec3 R) (obj : Object R) (x_deg y_deg z_deg : option R) :
  let cs := CoordinateSystem_init o x_deg y_deg z_deg in
  transform_point p cs cs = p
  ∧ position (transform_object obj cs cs) = position obj
  ∧ rotation (transform_object obj cs cs) = rotation obj.
Proof.
  intros cs.
  assert (Hleft : matmul (transpose (cs_R cs)) (cs_R cs) = I3)
    by apply is_rotation_left, CoordinateSystem_init_is_rotation.
  assert (Hpoint : ∀ q, transform_point q cs cs = q).
  { intros q. unfold transform_point.
    rewrite vadd_vsub_same, <- matvec_matmul, Hleft. apply matvec_I3. }
  split; [apply Hpoint | split].
  - rewrite transform_object_position. apply Hpoint.
  - rewrite transform_object_rotation, <- matmul_assoc, Hleft.
    apply matmul_I3_l.
Qed.

Lemma transform_point_via (p : Vec3 R) (cs1 cs2 cs3 : CoordinateSystem R) :
  matmul (cs_R cs2) (transpose (cs_R cs2)) = I3 →
  transform_point (transform_point p cs1 cs2) cs2 cs3 = transform_point p cs1 cs3.
Proof.
  intros H2. unfold transform_point.
  rewrite <- (matvec_matmul (cs_R cs2)), H2, matvec_I3, vadd_vsub_back.
  reflexivity.
Qed.

(** X8. Going through an intermediate frame is the same as going directly:
    [cs1 → cs2 → cs3] gives what [cs1 → cs3] gives, for whatever frame [cs2]
    the constructor builds. *)
Theorem transform_point_through_intermediate
    (p o2 : Vec3 R) (x2 y2 z2 : option R) (cs1 cs3 : CoordinateSystem R) :
  let cs2 := CoordinateSystem_init o2 x2 y2 z2 in
  transform_point (transform_point p cs1 cs2) cs2 cs3 = transform_point p cs1 cs3.
Proof.
  intros cs2. apply transform_point_via, CoordinateSystem_init_is_rotation.
Qed.

(** X9. The same for objects: position and rotation after
    [cs1 → cs2 → cs3] are those after [cs1 → cs3]. *)
Theorem transform_object_through_intermediate
    (obj : Object R) (o2 : Vec3 R) (x2 y2 z2 : option R)
    (cs1 cs3 : CoordinateSystem R) :
  let cs2 := CoordinateSystem_init o2 x2 y2 z2 in
  let via := transform_object (transform_object obj cs1 cs2) cs2 cs3 in
  position via = position (transform_object obj cs1 cs3)
  ∧ rotation via = rotation (transform_object obj cs1 cs3).
Proof.
  intros cs2 via.
  assert (H2 : matmul (cs_R cs2) (transpose (cs_R cs2)) = I3)
    by apply CoordinateSystem_init_is_rotation.
  unfold via. split.
  - rewrite !transform_object_position.
    apply transform_point_via, H2.
  - rewrite !transform_object_rotation.
    rewrite <- (matmul_assoc (cs_R cs2)), H2, matmul_I3_l. reflexivity.
Qed.

(** X10. [transform_point] is a rigid motion: the distance between two
    points is the same in both frames. *)
Theorem transform_point_keeps_distance
    (p q o1 o2 : Vec3 R) (x1 y1 z1 x2 y2 z2 : option R) :
  let cs1 := CoordinateSystem_init o1 x1 y1 z1 in
  let cs2 := CoordinateSystem_init o2 x2 y2 z2 in
  sqdist (transform_point p cs1 cs2) (transform_point q cs1 cs2) = sqdist p q.
Proof.
  intros cs1 cs2.
  assert (H1 : matmul (transpose (cs_R cs1)) (cs_R cs1) = I3)
    by apply is_rotation_left, CoordinateSystem_init_is_rotation.
  assert (H2 : matmul (cs_R cs2) (transpose (cs_R cs2)) = I3)
    by apply CoordinateSystem_init_is_rotation.
  unfold sqdist, transform_point.
  rewrite vsub_matvec, vsub_common, vsub_matvec.
  rewrite dot_matvec, transpose_involutive, H2, dot_I3.
  rewrite dot_matvec, H1, dot_I3. reflexivity.
Qed.

(** X11. [transform_object] moves the object as one body.  A point with
    coordinates [q] in the object's own axes lies at
    [position + rotation · q] in the frame the object is expressed in;
    computed from the transformed object, that is where [transform_point]
    takes the point.  Holds for any two frames. *)
Theorem transform_object_carries_body_points
    (obj : Object R) (cs1 cs2 : CoordinateSystem R) (q : Vec3 R) :
  let out := transform_object obj cs1 cs2 in
  vadd (position out) (matvec (rotation out) q)
  = transform_point (vadd (position obj) (matvec (rotation obj) q)) cs1 cs2.
Proof.
  intros out. unfold out.
  rewrite transform_object_position, transform_object_rotation.
  unfold transform_point.
  rewrite !matvec_matmul, vadd_matvec. f_equal.
  rewrite <- vadd_matvec.
  generalize (matvec (cs_R cs1) (position obj)).
  generalize (matvec (cs_R cs1) (matvec (rotation obj) q)).
  generalize (origin cs1). generalize (origin cs2).
  clear. intros a b c d. by_entries.
Qed.

(** X12. The rotation builders have period 360 degrees. *)
Theorem rotations_have_period_360 (deg : R) :
  rot_x (deg + 360) = rot_x deg
  ∧ rot_y (deg + 360) = rot_y deg
  ∧ rot_z (deg + 360) = rot_z deg.
Proof.
  unfold_arrays.
  replace ((deg + 360) * (PI / 180)) with (deg * (PI / 180) + 2 * PI) by field.
  rewrite period_cos, period_sin. repeat split.
Qed.

(** X13. Turns about one axis add up: [rot(a) · rot(b) = rot(a + b)] for
    each of the three builders. *)
Theorem rotations_about_one_axis_add (a b : R) :
  matmul (rot_x a) (rot_x b) = rot_x (a + b)
  ∧ matmul (rot_y a) (rot_y b) = rot_y (a + b)
  ∧ matmul (rot_z a) (rot_z b) = rot_z (a + b).
Proof.
  unfold_arrays.
  replace ((a + b) * (PI / 180)) with (a * (PI / 180) + b * (PI / 180)) by ring.
  rewrite cos_plus, sin_plus.
  repeat split; entrywise; ring.
Qed.

(** X14. The opposite angle gives the transposed matrix, which is the
    inverse: [rot(-a) = rot(a)^T] and [rot(a) · rot(-a) = I]. *)
Theorem opposite_angle_undoes_rotation (a : R) :
  (rot_x (- a) = transpose (rot_x a)
   ∧ rot_y (- a) = transpose (rot_y a)
   ∧ rot_z (- a) = transpose (rot_z a))
  ∧ (matmul (rot_x a) (rot_x (- a)) = I3
     ∧ matmul (rot_y a) (rot_y (- a)) = I3
     ∧ matmul (rot_z a) (rot_z (- a)) = I3).
Proof.
  assert (Ht : rot_x (- a) = transpose (rot_x a)
               ∧ rot_y (- a) = transpose (rot_y a)
               ∧ rot_z (- a) = transpose (rot_z a)).
  { unfold_arrays.
    replace (- a * (PI / 180)) with (- (a * (PI / 180))) by ring.
    rewrite cos_neg, sin_neg, Ropp_involutive. repeat split. }
  split; [exact Ht |].
  destruct Ht as (-> & -> & ->).
  repeat split; [apply rot_x_is_rotation | apply rot_y_is_rotation
                 | apply rot_z_is_rotation].
Qed.

End TransformFacts.

Lemma program_object_is_rotation_witness :
  let obj :=
    transform_object (Object_init (mkVec 1 2 3) (Some 30) None (Some 45))
      (CoordinateSystem_init (mkVec 0 0 0) None None None)
      (CoordinateSystem_init (mkVec 10 5 3) None None (Some 6)) in
  program_object obj ∧ is_rotation (rotation obj).
Proof.
  intros obj.
  assert (Hobj : program_object obj) by (apply po_transform, po_init).
  split; [exact Hobj |]. exact (program_object_is_rotation obj Hobj).
Defined.

(** ** Rounding: what exact arithmetic leaves out *)

(** X16. In binary64 the round trip of [transform_point] is not exact, and
    the error is not small when a frame lies far away.  With
    [cs1 = CoordinateSystem([1e20,0,0])], [cs2 = CoordinateSystem([0,0,0])]
    and [p = [1,0,0]], the sum [1e20 + 1] rounds to [1e20]: the point
    arrives in [cs2] as [[1e20,0,0]] and comes back as [[0,0,0]].  Only
    [cos(radians(0)) = 1] and [sin(radians(0)) = 0] are used of the library
    functions. *)
Theorem binary64_round_trip_absorbs
    (cosf sinf radf : PrimFloat.float → PrimFloat.float) :
  cosf (radf Binary64.zero) = Binary64.one →
  sinf (radf Binary64.zero) = Binary64.zero →
  let S := Binary64.scalar cosf sinf radf in
  let cs1 := Binary64.far_frame cosf sinf radf in
  let cs2 := Binary64.near_frame cosf sinf radf in
  @transform_point _ S Binary64.unit_x cs1 cs2 = Binary64.far_x
  ∧ @transform_point _ S (@transform_point _ S Binary64.unit_x cs1 cs2) cs2 cs1
    = Binary64.zero_vec.
Proof.
  intros Hcos Hsin S cs1 cs2. subst S cs1 cs2.
  unfold Binary64.zero, Binary64.one in Hcos, Hsin.
  cbv [transform_point Binary64.far_frame Binary64.near_frame
       CoordinateSystem_init origin cs_R Binary64.scalar
       matmul rowmat matvec dot transpose col0 col1 col2 vadd vsub
       rot_x rot_y rot_z deg_arg from_option Datatypes.id
       row0 row1 row2 vx vy vz
       s_add s_sub s_mul s_neg s_zero s_one np_cos np_sin np_radians
       Binary64.unit_x Binary64.far_x Binary64.zero_vec].
  rewrite Hcos, Hsin. split; reflexivity.
Qed.

Lemma binary64_round_trip_absorbs_witness :
  let cosf := λ _ : PrimFloat.float, Binary64.one in
  let sinf := λ _ : PrimFloat.float, Binary64.zero in
  let radf := λ x : PrimFloat.float, x in
  let S := Binary64.scalar cosf sinf radf in
  cosf (radf Binary64.zero) = Binary64.one
  ∧ sinf (radf Binary64.zero) = Binary64.zero
  ∧ @transform_point _ S
      (@transform_point _ S Binary64.unit_x
         (Binary64.far_frame cosf sinf radf) (Binary64.near_frame cosf sinf radf))
      (Binary64.near_frame cosf sinf radf) (Binary64.far_frame cosf sinf radf)
    = Binary64.zero_vec.
Proof.
  intros cosf sinf radf S.
  split; [reflexivity | split; [reflexivity |]].
  exact (proj2 (binary64_round_trip_absorbs cosf sinf radf eq_refl eq_refl)).
Defined.




(** ** Runs on the store with aliasing *)

Lemma transform_point_returns_new_array_witness :
  let c := mkCoordinateSystem (mkVec 10 5 3) I3 in
  shared_store !! 1%positive = Some (Array1 (mkVec 1 0 0))
  ∧ frame_at shared_store 5%positive c
  ∧ returns (py_transform_point 1%positive 5%positive 5%positive) shared_store
      (λ l h',
         keeps shared_store h' ∧ shared_store !! l = None ∧ l ≠ 1%positive
         ∧ h' !! l = Some (Array1 (transform_point (mkVec 1 0 0) c c))).
Proof.
  intros c.
  assert (Hp : shared_store !! 1%positive = Some (Array1 (mkVec 1 0 0)))
    by reflexivity.
  assert (Hcs : frame_at shared_store 5%positive c)
    by (exists 4%positive, 2%positive; repeat split; reflexivity).
  split; [exact Hp | split; [exact Hcs |]].
  exact (transform_point_returns_new_array shared_store 1%positive 5%positive
           5%positive (mkVec 1 0 0) c c Hp Hcs Hcs).
Defined.

Lemma wrong_instance_raises_witness :
  shared_store !! 3%positive = Some (ObjInst 1%positive 2%positive)
  ∧ py_transform_point 1%positive 3%positive 5%positive shared_store = None
  ∧ py_transform_point 1%positive 5%positive 3%positive shared_store = None
  ∧ shared_store !! 5%positive = Some (CsysInst 4%positive 2%positive)
  ∧ py_transform_object 5%positive 5%positive 5%positive shared_store = None.
Proof.
  assert (Hobj : shared_store !! 3%positive = Some (ObjInst 1%positive 2%positive))
    by reflexivity.
  assert (Hcs : shared_store !! 5%positive = Some (CsysInst 4%positive 2%positive))
    by reflexivity.
  split; [exact Hobj | split; [| split; [| split; [exact Hcs |]]]].
  - exact (proj1 (proj1 (wrong_instance_raises shared_store 3%positive
                           1%positive 2%positive) Hobj 1%positive 5%positive)).
  - exact (proj2 (proj1 (wrong_instance_raises shared_store 3%positive
                           1%positive 2%positive) Hobj 1%positive 5%positive)).
  - exact (proj2 (wrong_instance_raises shared_store 5%positive
                    4%positive 2%positive) Hcs 5%positive 5%positive).
Defined.

Lemma constructors_copy_their_argument_witness :
  shared_store !! 4%positive = Some (Array1 (mkVec 10 5 3))
  ∧ returns (py_CoordinateSystem 4%positive None None (Some 6)) shared_store
      (λ cs h', keeps shared_store h' ∧ shared_store !! cs = None
         ∧ ∃ o r, h' !! cs = Some (CsysInst o r)
                  ∧ shared_store !! o = None ∧ shared_store !! r = None
                  ∧ o ≠ 4%positive ∧ r ≠ 4%positive
                  ∧ h' !! o = Some (Array1 (mkVec 10 5 3))
                  ∧ h' !! r = Some (Array2 (cs_R main_cs2))).
Proof.
  assert (Ha : shared_store !! 4%positive = Some (Array1 (mkVec 10 5 3)))
    by reflexivity.
  split; [exact Ha |].
  exact (proj1 (constructors_copy_their_argument shared_store 4%positive
                  (mkVec 10 5 3) None None (Some 6) Ha)).
Defined.

Lemma transform_object_result_unshared_witness :
  let b := mkObject (mkVec 1 0 0) I3 in
  let c := mkCoordinateSystem (mkVec 10 5 3) I3 in
  object_at shared_store 3%positive b
  ∧ frame_at shared_store 5%positive c
  ∧ returns (py_transform_object 3%positive 5%positive 5%positive) shared_store
      (λ out h',
         ∃ p r, h' !! out = Some (ObjInst p r)
                ∧ shared_store !! p = None ∧ shared_store !! r = None ∧ p ≠ r
                ∧ h' !! p = Some (Array1 (transform_point (position b) c c))
                ∧ h' !! r = Some (Array2 (matmul (transpose (cs_R c))
                                                 (matmul (cs_R c) (rotation b))))).
Proof.
  intros b c.
  assert (Hobj : object_at shared_store 3%positive b)
    by (exists 1%positive, 2%positive; repeat split; reflexivity).
  assert (Hcs : frame_at shared_store 5%positive c)
    by (exists 4%positive, 2%positive; repeat split; reflexivity).
  split; [exact Hobj | split; [exact Hcs |]].
  exact (transform_object_result_unshared shared_store 3%positive 5%positive
           5%positive b c c Hobj Hcs Hcs).
Defined.
